(** * Tesseract OCR model: the [predict] path and the serving request

    A shallow embedding of the notebook
    [03_Deploy Tesseract Model.py]: the methods [OCRModel.predict] and
    [OCRModel.load_context], the tables and registry calls of the logging
    cells, and the [create_endpoint] call of the serving cell.

    The notebook is glue around three imported libraries.  What the
    notebook itself writes (the control flow of [predict], its
    [try]/[except], the literal dictionaries) is embedded as definitions;
    what it imports and cannot be read from the notebook (Pillow's decoder,
    the Tesseract binding, [json.dumps]) is an interface, a type class whose
    operations may fail and may change the outside world. *)

From stdpp Require Import base strings list gmap pretty.
From Stdlib Require Import ZArith.

Set Warnings "-register-all".

Local Open Scope string_scope.
Local Open Scope list_scope.

(** ** Python values, exceptions and results *)

Abbreviation bytes := (list Byte.byte).

(** The objects a cell of the input table holds: raw bytes, a string (for
    instance base64 text that nobody decoded), a missing value, or a
    number. *)
Inductive pyval : Type :=
  | PyNone
  | PyInt (n : Z)
  | PyStr (s : string)
  | PyBytes (b : bytes).

(** A raised exception: its class name, whether that class derives from
    [Exception] (as opposed to only from [BaseException], like
    [KeyboardInterrupt] or [SystemExit]), and [str(e)]. *)
Record exn : Type := mkExn {
  exn_class : string;
  exn_is_Exception : bool;
  exn_str : string
}.

Inductive result (A : Type) : Type :=
  | Ok (a : A)
  | Raise (e : exn).
Arguments Ok {A} a.
Arguments Raise {A} e.

Definition KeyError (key : string) : exn :=
  mkExn "KeyError" true ("'" ++ key ++ "'").
Definition IndexError (msg : string) : exn := mkExn "IndexError" true msg.
Definition TypeError (msg : string) : exn := mkExn "TypeError" true msg.

(** ** JSON values, as the dictionaries the notebook builds *)

Inductive json : Type :=
  | JNull
  | JBool (b : bool)
  | JNum (n : Z)
  | JStr (s : string)
  | JArr (l : list json)
  | JObj (fields : list (string * json)).

(** The keys of an object, in insertion order; a non-object has none. *)
Definition keys (j : json) : list string :=
  match j with
  | JObj fields => fst <$> fields
  | _ => []
  end.

Definition has_key (k : string) (j : json) : bool :=
  bool_decide (k ∈ keys j).

(** [d[k]] on an object: the first field named [k]. *)
Fixpoint assoc (k : string) (fields : list (string * json)) : option json :=
  match fields with
  | [] => None
  | (k', v) :: rest => if String.eqb k k' then Some v else assoc k rest
  end.

Definition jget (k : string) (j : json) : option json :=
  match j with
  | JObj fields => assoc k fields
  | _ => None
  end.

Definition jitems (j : json) : list json :=
  match j with
  | JArr l => l
  | _ => []
  end.

(** ** The input table

    A [pandas.DataFrame] as a finite map from column label to the column's
    cells.  [model_input['image']] raises [KeyError] for a missing label,
    [.iloc[0]] raises [IndexError] on a column without rows. *)

Abbreviation DataFrame := (gmap string (list pyval)).

Definition getitem (df : DataFrame) (label : string) : result (list pyval) :=
  match df !! label with
  | Some col => Ok col
  | None => Raise (KeyError label)
  end.

Definition iloc (col : list pyval) (i : nat) : result pyval :=
  match col !! i with
  | Some v => Ok v
  | None => Raise (IndexError "single positional indexer is out-of-bounds")
  end.

(** The built-in [len]. *)
Definition len (v : pyval) : result nat :=
  match v with
  | PyBytes b => Ok (length b)
  | PyStr s => Ok (String.length s)
  | PyNone => Raise (TypeError "object of type 'NoneType' has no len()")
  | PyInt _ => Raise (TypeError "object of type 'int' has no len()")
  end.

(** [io.BytesIO(v)]: the buffer's content.  Only a bytes-like object (or
    [None], an empty buffer) is accepted. *)
Definition BytesIO (v : pyval) : result bytes :=
  match v with
  | PyBytes b => Ok b
  | PyNone => Ok []
  | PyStr _ => Raise (TypeError "a bytes-like object is required, not 'str'")
  | PyInt _ => Raise (TypeError "a bytes-like object is required, not 'int'")
  end.

(** ** The imported libraries *)

(** [PIL.Image]: [Image.open], [image.format], [image.convert(mode)] and
    [image.save(buffer, format=...)] followed by [buffer.getvalue()]. *)
Class PIL (W image : Type) : Type := {
  Image_open : bytes -> W -> result image * W;
  Image_format : image -> option string;
  Image_convert : image -> string -> W -> result image * W;
  Image_save : image -> string -> W -> result bytes * W
}.

(** [pytesseract.image_to_string], which runs the Tesseract binary. *)
Class Pytesseract (W image : Type) : Type := {
  image_to_string : image -> W -> result string * W
}.

(** [json.dumps]. *)
Class Json : Type := {
  json_dumps : json -> string
}.

(** The calls [predict] makes into Pillow and Tesseract, in the order made. *)
Inductive call (image : Type) : Type :=
  | COpen (b : bytes)
  | CConvert (img : image) (mode : string)
  | CSave (img : image) (fmt : string)
  | COcr (img : image).
Arguments COpen {image} b.
Arguments CConvert {image} img mode.
Arguments CSave {image} img fmt.
Arguments COcr {image} img.

Definition is_ocr {image : Type} (c : call image) : bool :=
  match c with
  | COcr _ => true
  | _ => false
  end.

(** How many times a sequence of calls runs Tesseract. *)
Definition ocr_calls {image : Type} (calls : list (call image)) : nat :=
  length (List.filter is_ocr calls).

(** The state a call of [predict] runs in: the attributes of the model
    object ([self.__dict__]), the world outside the interpreter, what was
    printed, and the library calls made so far. *)
Record state (W image : Type) : Type := mkState {
  st_self : gmap string pyval;
  st_world : W;
  st_stdout : list string;
  st_calls : list (call image)
}.
Arguments mkState {W image} _ _ _ _.
Arguments st_self {W image} _.
Arguments st_world {W image} _.
Arguments st_stdout {W image} _.
Arguments st_calls {W image} _.

(** ** The model *)

Section OCRModel.
Context {W image : Type}.
Context `{!PIL W image, !Pytesseract W image, !Json}.

(** Computations that read and write the state and may raise. *)
Definition M (A : Type) : Type := state W image -> result A * state W image.

Definition ret {A : Type} (a : A) : M A := fun s => (Ok a, s).

Definition bind {A B : Type} (m : M A) (k : A -> M B) : M B :=
  fun s =>
    match m s with
    | (Ok a, s') => k a s'
    | (Raise e, s') => (Raise e, s')
    end.

Definition lift {A : Type} (r : result A) : M A := fun s => (r, s).

(** [try: body  except Exception as e: handler e].  An exception whose
    class does not derive from [Exception] is not caught. *)
Definition try_except_Exception {A : Type}
    (body : M A) (handler : exn -> M A) : M A :=
  fun s =>
    match body s with
    | (Ok a, s') => (Ok a, s')
    | (Raise e, s') =>
        if exn_is_Exception e then handler e s' else (Raise e, s')
    end.

Definition print (line : string) : M unit :=
  fun s =>
    (Ok tt, mkState (st_self s) (st_world s)
                    (st_stdout s ++ [line]) (st_calls s)).

(** A library call: it is recorded, then run on the world. *)
Definition invoke {A : Type} (c : call image)
    (f : W -> result A * W) : M A :=
  fun s =>
    let '(r, w) := f (st_world s) in
    (r, mkState (st_self s) w (st_stdout s) (st_calls s ++ [c])).

Notation "x <- m ;; k" := (bind m (fun x => k))
  (at level 100, m at next level, right associativity).
Notation "m ;;; k" := (bind m (fun _ => k))
  (at level 100, right associativity).

(** [f"{image.format}"] *)
Definition format_str (fmt : option string) : string :=
  match fmt with
  | Some f => f
  | None => "None"
  end.

(** [image.format != 'JPEG'] *)
Definition format_ne_JPEG (img : image) : bool :=
  match Image_format img with
  | Some f => negb (String.eqb f "JPEG")
  | None => true
  end.

(** The body of the [try] block of [predict]. *)
Definition predict_try (model_input : DataFrame) : M string :=
  col <- lift (getitem model_input "image") ;;
  image_bytes <- lift (iloc col 0) ;;
  n <- lift (len image_bytes) ;;
  print ("Image bytes length: " ++ pretty n) ;;;
  buf <- lift (BytesIO image_bytes) ;;
  image0 <- invoke (COpen buf) (Image_open buf) ;;
  print ("Initial Image format: " ++ format_str (Image_format image0)) ;;;
  image1 <-
    (if format_ne_JPEG image0 then
       rgb <- invoke (CConvert image0 "RGB") (Image_convert image0 "RGB") ;;
       jpeg_bytes <- invoke (CSave rgb "JPEG") (Image_save rgb "JPEG") ;;
       invoke (COpen jpeg_bytes) (Image_open jpeg_bytes)
     else ret image0) ;;
  print ("Converted Image format: " ++ format_str (Image_format image1)) ;;;
  text <- invoke (COcr image1) (image_to_string image1) ;;
  ret (json_dumps (JObj [("text", JStr text)])).

(** [OCRModel.predict(self, context, model_input)].  The model object is
    the [st_self] component of the state; [context] is not used. *)
Definition predict (context : pyval) (model_input : DataFrame) : M string :=
  try_except_Exception (predict_try model_input)
    (fun e => ret (json_dumps (JObj [("error", JStr (exn_str e))]))).

(** ** What a run of [predict] is expected to do

    The declarative counterparts of the code above, used to state the
    properties below. *)

(** The cell [predict] reads: row 0 of column ['image']. *)
Definition first_image (df : DataFrame) : option pyval :=
  col ← df !! "image"; col !! 0.

(** A single-row table whose ['image'] cell holds [v]. *)
Definition single_row (df : DataFrame) (v : pyval) : Prop :=
  df !! "image" = Some [v].

(** The dictionary [predict] serialises for an outcome of the OCR path. *)
Definition response (r : result string) : json :=
  match r with
  | Ok text => JObj [("text", JStr text)]
  | Raise e => JObj [("error", JStr (exn_str e))]
  end.

(** [pipeline b w calls r w']: on image bytes [b], from world [w], the
    library calls [calls] are made in this order, the outcome is [r] (the
    text Tesseract extracted, or the exception of the first call that
    failed) and the world is left as [w'].  Decode; normalise to JPEG,
    unless the decoded format is JPEG already; run OCR on the result. *)
Inductive pipeline (b : bytes) (w : W) :
    list (call image) -> result string -> W -> Prop :=
  | run_open_raises e w1 :
      Image_open b w = (Raise e, w1) ->
      pipeline b w [COpen b] (Raise e) w1
  | run_jpeg img w1 r w2 :
      Image_open b w = (Ok img, w1) ->
      Image_format img = Some "JPEG" ->
      image_to_string img w1 = (r, w2) ->
      pipeline b w [COpen b; COcr img] r w2
  | run_convert_raises img w1 e w2 :
      Image_open b w = (Ok img, w1) ->
      Image_format img <> Some "JPEG" ->
      Image_convert img "RGB" w1 = (Raise e, w2) ->
      pipeline b w [COpen b; CConvert img "RGB"] (Raise e) w2
  | run_save_raises img w1 rgb w2 e w3 :
      Image_open b w = (Ok img, w1) ->
      Image_format img <> Some "JPEG" ->
      Image_convert img "RGB" w1 = (Ok rgb, w2) ->
      Image_save rgb "JPEG" w2 = (Raise e, w3) ->
      pipeline b w [COpen b; CConvert img "RGB"; CSave rgb "JPEG"]
               (Raise e) w3
  | run_reopen_raises img w1 rgb w2 jpeg_bytes w3 e w4 :
      Image_open b w = (Ok img, w1) ->
      Image_format img <> Some "JPEG" ->
      Image_convert img "RGB" w1 = (Ok rgb, w2) ->
      Image_save rgb "JPEG" w2 = (Ok jpeg_bytes, w3) ->
      Image_open jpeg_bytes w3 = (Raise e, w4) ->
      pipeline b w [COpen b; CConvert img "RGB"; CSave rgb "JPEG";
                    COpen jpeg_bytes] (Raise e) w4
  | run_reencoded img w1 rgb w2 jpeg_bytes w3 jpeg w4 r w5 :
      Image_open b w = (Ok img, w1) ->
      Image_format img <> Some "JPEG" ->
      Image_convert img "RGB" w1 = (Ok rgb, w2) ->
      Image_save rgb "JPEG" w2 = (Ok jpeg_bytes, w3) ->
      Image_open jpeg_bytes w3 = (Ok jpeg, w4) ->
      image_to_string jpeg w4 = (r, w5) ->
      pipeline b w [COpen b; CConvert img "RGB"; CSave rgb "JPEG";
                    COpen jpeg_bytes; COcr jpeg] r w5.

(** [path_fails df w e]: on table [df], from world [w], some step of the
    predict path raises [e]: the row access, reading the cell as bytes,
    or a library call of the pipeline. *)
Inductive path_fails (df : DataFrame) (w : W) : exn -> Prop :=
  | fails_column :
      df !! "image" = None ->
      path_fails df w (KeyError "image")
  | fails_row col e :
      df !! "image" = Some col -> iloc col 0 = Raise e ->
      path_fails df w e
  | fails_len v e :
      first_image df = Some v -> len v = Raise e ->
      path_fails df w e
  | fails_buffer v n e :
      first_image df = Some v -> len v = Ok n -> BytesIO v = Raise e ->
      path_fails df w e
  | fails_library b calls e w' :
      first_image df = Some (PyBytes b) ->
      pipeline b w calls (Raise e) w' ->
      path_fails df w e.

(** Tesseract run on the image as decoded, with no re-encoding: the
    direct path that the specification compares [predict] with. *)
Definition ocr_direct (b : bytes) (w : W) : result string :=
  match Image_open b w with
  | (Ok img, w1) => (image_to_string img w1).1
  | (Raise e, _) => Raise e
  end.

(** The imported libraries signal their failures with exceptions that
    derive from [Exception] (Pillow: [UnidentifiedImageError], [OSError],
    [ValueError]; pytesseract: [TesseractError],
    [TesseractNotFoundError], [RuntimeError]). *)
Definition raises_Exception_only {A : Type} (f : W -> result A * W) : Prop :=
  forall w e w', f w = (Raise e, w') -> exn_is_Exception e = true.

Definition libraries_raise_Exception : Prop :=
  (forall b, raises_Exception_only (Image_open b)) /\
  (forall img mode, raises_Exception_only (Image_convert img mode)) /\
  (forall img fmt, raises_Exception_only (Image_save img fmt)) /\
  (forall img, raises_Exception_only (image_to_string img)).

End OCRModel.

Arguments M W image A : clear implicits.

(** ** The serving cell *)

(** A request made through the deployment client returned by
    [get_deploy_client(target)]. *)
Inductive client_call : Type :=
  | create_endpoint (target : string) (name : string) (config : json).

(** The [config] dictionary of the [create_endpoint] call. *)
Definition endpoint_config (catalog schema model_name : string) : json :=
  JObj [
    ("served_entities", JArr [
       JObj [
         ("name", JStr model_name);
         ("entity_name", JStr (catalog ++ "." ++ schema ++ "." ++ model_name));
         ("entity_version", JStr "1");
         ("workload_size", JStr "Small");
         ("scale_to_zero_enabled", JBool true)
       ]
     ]);
    ("traffic_config", JObj [
       ("routes", JArr [
          JObj [
            ("served_model_name", JStr model_name);
            ("traffic_percentage", JNum 100)
          ]
        ])
     ])
  ].

(** The deployment requests of the serving cell, in order.  [catalog],
    [schema] and [model_name] come from the notebook's [config] module. *)
Definition serving_step (catalog schema model_name : string)
    : list client_call :=
  [create_endpoint "databricks" model_name
     (endpoint_config catalog schema model_name)].

(** ** Loading the model: [OCRModel.load_context] *)

(** [subprocess.run(args, check=True)]: it returns once the command has
    exited with status 0, and raises otherwise ([CalledProcessError] for
    another status, [OSError] when the command cannot be started).  The
    notebook drops the value returned. *)
Class Subprocess (W : Type) : Type := {
  subprocess_run_check : list string -> W -> result unit * W
}.

(** The interpreter that loads the model: the module attribute
    [pytesseract.pytesseract.tesseract_cmd], the world outside, and the
    commands run so far. *)
Record process (W : Type) : Type := mkProcess {
  tesseract_cmd : string;
  pr_world : W;
  pr_commands : list (list string)
}.
Arguments mkProcess {W} _ _ _.
Arguments tesseract_cmd {W} _.
Arguments pr_world {W} _.
Arguments pr_commands {W} _.

Definition apt_get_update : list string := ["apt-get"; "update"].
Definition apt_get_install : list string :=
  ["apt-get"; "install"; "-y"; "tesseract-ocr"].

Section Loading.
Context {W : Type} `{!Subprocess W}.

(** One [subprocess.run(args, check=True)] statement. *)
Definition run_command (args : list string) (p : process W)
    : result unit * process W :=
  let '(r, w) := subprocess_run_check args (pr_world p) in
  (r, mkProcess (tesseract_cmd p) w (pr_commands p ++ [args])).

(** The assignment [pytesseract.pytesseract.tesseract_cmd = path], made
    when the cell that defines the class runs and again at the end of
    [load_context]. *)
Definition set_tesseract_cmd (path : string) (p : process W) : process W :=
  mkProcess path (pr_world p) (pr_commands p).

(** [OCRModel.load_context(self, context)].  There is no [try] here: the
    first statement that raises ends the method. *)
Definition load_context (context : pyval) (p : process W)
    : result unit * process W :=
  match run_command apt_get_update p with
  | (Raise e, p1) => (Raise e, p1)
  | (Ok _, p1) =>
      match run_command apt_get_install p1 with
      | (Raise e, p2) => (Raise e, p2)
      | (Ok _, p2) => (Ok tt, set_tesseract_cmd "/usr/bin/tesseract" p2)
      end
  end.

End Loading.

(** ** The tables and the registry calls of the other cells *)

(** [pd.DataFrame({'image': [image_bytes]})], the table of the offline
    prediction, and [pd.DataFrame({'image': [encoded_image]})], the table of
    the online request, whose cell is the base64 text of the image. *)
Definition offline_input (image_bytes : bytes) : DataFrame :=
  {["image" := [PyBytes image_bytes]]}.

Definition online_input (encoded_image : string) : DataFrame :=
  {["image" := [PyStr encoded_image]]}.

(** The calls into MLflow that log, register and load the model. *)
Inductive mlflow_call : Type :=
  | log_model (run_id : string) (artifact_path : string)
  | set_registry_uri (uri : string)
  | register_model (model_uri : string) (name : string)
  | load_model (model_uri : string).

(** The cell that logs the model in the run [run_id] and registers it. *)
Definition registration_cell (run_id catalog schema model_name : string)
    : list mlflow_call :=
  [log_model run_id "ocr_model";
   set_registry_uri "databricks-uc";
   register_model ("runs:/" ++ run_id ++ "/ocr_model")
                  (catalog ++ "." ++ schema ++ "." ++ model_name)].

(** The cell that loads the logged model for the offline prediction. *)
Definition load_cell (run_id : string) : list mlflow_call :=
  [load_model ("runs:/" ++ run_id ++ "/ocr_model")].

(** ** A small instance of the libraries

    Used to run [predict] on concrete tables.  A picture is a format tag and
    its pixel data; the toy decoder recognises the JPEG and PNG signatures,
    the toy recogniser reads the pixel data as characters and needs the
    Tesseract binary to be installed. *)

Module Example.

Record picture : Type := mkPicture {
  pic_format : option string;
  pic_pixels : bytes
}.

Record world : Type := mkWorld {
  tesseract_installed : bool;
  tesseract_runs : nat
}.

Definition UnidentifiedImageError : exn :=
  mkExn "UnidentifiedImageError" true "cannot identify image file".

Definition TesseractNotFoundError : exn :=
  mkExn "TesseractNotFoundError" true
    "tesseract is not installed or it's not in your PATH.".

Definition open_picture (b : bytes) (w : world) : result picture * world :=
  match b with
  | b0 :: b1 :: pixels =>
      if Byte.eqb b0 Byte.xff && Byte.eqb b1 Byte.xd8
      then (Ok (mkPicture (Some "JPEG") pixels), w)
      else if Byte.eqb b0 Byte.x89 && Byte.eqb b1 Byte.x50
      then (Ok (mkPicture (Some "PNG") pixels), w)
      else (Raise UnidentifiedImageError, w)
  | _ => (Raise UnidentifiedImageError, w)
  end.

Definition convert_picture (p : picture) (mode : string) (w : world)
    : result picture * world :=
  (Ok (mkPicture None (pic_pixels p)), w).

Definition save_picture (p : picture) (fmt : string) (w : world)
    : result bytes * world :=
  if String.eqb fmt "JPEG"
  then (Ok (Byte.xff :: Byte.xd8 :: pic_pixels p), w)
  else (Raise (mkExn "KeyError" true ("'" ++ fmt ++ "'")), w).

Definition read_picture (p : picture) (w : world) : result string * world :=
  if tesseract_installed w
  then (Ok (String.string_of_list_byte (pic_pixels p)),
        mkWorld true (S (tesseract_runs w)))
  else (Raise TesseractNotFoundError, w).

(** A serialiser in the layout of [json.dumps]: [", "] between items,
    [": "] after a key, double quotes and backslashes escaped. *)
Definition dquote : Ascii.ascii := Ascii.ascii_of_nat 34.
Definition backslash : Ascii.ascii := Ascii.ascii_of_nat 92.

Fixpoint escape (s : string) : string :=
  match s with
  | EmptyString => EmptyString
  | String c rest =>
      if Ascii.eqb c dquote then String backslash (String c (escape rest))
      else if Ascii.eqb c backslash then String c (String c (escape rest))
      else String c (escape rest)
  end.

Definition quote (s : string) : string :=
  String dquote (escape s ++ String dquote EmptyString).

Fixpoint dumps (j : json) : string :=
  match j with
  | JNull => "null"
  | JBool true => "true"
  | JBool false => "false"
  | JNum n => pretty n
  | JStr s => quote s
  | JArr l =>
      "[" +:+
      (fix items (l : list json) : string :=
         match l with
         | [] => EmptyString
         | x :: rest =>
             dumps x +:+ match rest with [] => EmptyString | _ => ", " +:+ items rest end
         end) l +:+ "]"
  | JObj fields =>
      "{" +:+
      (fix items (l : list (string * json)) : string :=
         match l with
         | [] => EmptyString
         | (k, v) :: rest =>
             quote k +:+ ": " +:+ dumps v +:+
             match rest with [] => EmptyString | _ => ", " +:+ items rest end
         end) fields +:+ "}"
  end.

#[export] Instance pictures : PIL world picture := {|
  Image_open := open_picture;
  Image_format := pic_format;
  Image_convert := convert_picture;
  Image_save := save_picture
|}.

#[export] Instance reader : Pytesseract world picture := {|
  image_to_string := read_picture
|}.

#[export] Instance serialiser : Json := {| json_dumps := dumps |}.

(** A second encoder, lossy as JPEG is: saving drops the last byte of the
    pixel data. *)
Definition save_lossy (p : picture) (fmt : string) (w : world)
    : result bytes * world :=
  save_picture (mkPicture (pic_format p) (removelast (pic_pixels p))) fmt w.

Definition lossy_pictures : PIL world picture := {|
  Image_open := open_picture;
  Image_format := pic_format;
  Image_convert := convert_picture;
  Image_save := save_lossy
|}.

Definition initial (installed : bool) : state world picture :=
  mkState ∅ (mkWorld installed 0) [] [].

(** Image bytes: a JPEG and a PNG that both show [Hi], and bytes that are
    no image.  [table cells] is the table whose only column, [image], holds
    [cells]. *)
Definition jpeg_Hi : bytes := [Byte.xff; Byte.xd8; Byte.x48; Byte.x69].
Definition png_Hi : bytes := [Byte.x89; Byte.x50; Byte.x48; Byte.x69].
Definition garbage : bytes := [Byte.x00; Byte.x01].

Definition table (cells : list pyval) : DataFrame := {["image" := cells]}.

(** A recogniser interrupted from outside while it runs. *)
Definition KeyboardInterrupt : exn := mkExn "KeyboardInterrupt" false EmptyString.

Definition interrupted_reader : Pytesseract world picture := {|
  image_to_string := fun _ w => (Raise KeyboardInterrupt, w)
|}.

(** Package installation: with the network up both commands succeed and
    the second installs Tesseract; with the network down [apt-get update]
    exits with status 100. *)
Definition CalledProcessError : exn :=
  mkExn "CalledProcessError" true
    "Command '['apt-get', 'update']' returned non-zero exit status 100.".

Definition apt_get (online : bool) (args : list string) (w : world)
    : result unit * world :=
  if negb online then (Raise CalledProcessError, w)
  else if bool_decide (args = apt_get_install)
  then (Ok tt, mkWorld true (tesseract_runs w))
  else (Ok tt, w).

Definition apt_online : Subprocess world :=
  {| subprocess_run_check := apt_get true |}.
Definition apt_offline : Subprocess world :=
  {| subprocess_run_check := apt_get false |}.

Definition fresh_process : process world :=
  mkProcess "tesseract" (mkWorld false 0) [].

End Example.

(** * Properties of [predict] *)

Section Predict.
Context {W image : Type}.
Context `{!PIL W image, !Pytesseract W image, !Json}.

Implicit Types (df : DataFrame) (s : state W image) (b : bytes).

Lemma format_ne_JPEG_false (img : image) :
  Image_format img = Some "JPEG" -> format_ne_JPEG img = false.
Proof. unfold format_ne_JPEG. by intros ->. Qed.

Lemma format_ne_JPEG_true (img : image) :
  Image_format img <> Some "JPEG" -> format_ne_JPEG img = true.
Proof.
  unfold format_ne_JPEG. destruct (Image_format img) as [f|]; [|done].
  intros Hne. destruct (String.eqb_spec f "JPEG") as [->|]; [|done].
  by destruct Hne.
Qed.

Lemma first_image_Some df v :
  first_image df = Some v <->
  exists col, df !! "image" = Some col /\ col !! 0 = Some v.
Proof.
  unfold first_image. destruct (df !! "image") as [col|]; simpl.
  - split; [eauto | by intros (? & [= <-] & ?)].
  - split; [done | by intros (? & ? & ?)].
Qed.

(** Unfolds one run of the [try] block once the lookups are known. *)
Ltac run_predict_try :=
  unfold predict_try, bind, lift, invoke, print, ret, getitem, iloc;
  repeat (simplify_option_eq; cbn [st_self st_world st_stdout st_calls len BytesIO];
          try match goal with
            | H : ?f = _ |- context [?f] => rewrite H
            end).

(** On a bytes cell the [try] block runs the pipeline. *)
Lemma predict_try_pipeline df s b calls r w' :
  first_image df = Some (PyBytes b) ->
  pipeline b (st_world s) calls r w' ->
  exists out,
    predict_try df s =
      (match r with
       | Ok text => Ok (json_dumps (JObj [("text", JStr text)]))
       | Raise e => Raise e
       end,
       mkState (st_self s) w' (st_stdout s ++ out) (st_calls s ++ calls)).
Proof.
  intros (col & Hcol & Hrow)%first_image_Some Hrun.
  destruct Hrun;
    repeat match goal with
      | H : Image_format _ = Some "JPEG" |- _ =>
          apply format_ne_JPEG_false in H
      | H : Image_format _ <> Some "JPEG" |- _ =>
          apply format_ne_JPEG_true in H
      end;
    run_predict_try;
    try (destruct r);
    rewrite <- ?app_assoc; cbn [app];
    eexists; reflexivity.
Qed.

(** The pipeline always has an outcome. *)
Lemma pipeline_total b (w : W) :
  exists calls r w', pipeline b w calls r w'.
Proof.
  destruct (Image_open b w) as [[img|e] w1] eqn:Hopen;
    [|by eauto using pipeline].
  destruct (decide (Image_format img = Some "JPEG")) as [Hfmt|Hfmt].
  { destruct (image_to_string img w1) as [r w2] eqn:Hocr.
    eauto using pipeline. }
  destruct (Image_convert img "RGB" w1) as [[rgb|e] w2] eqn:Hconv;
    [|by eauto using pipeline].
  destruct (Image_save rgb "JPEG" w2) as [[jpeg_bytes|e] w3] eqn:Hsave;
    [|by eauto using pipeline].
  destruct (Image_open jpeg_bytes w3) as [[jpeg|e] w4] eqn:Hreopen;
    [|by eauto 10 using pipeline].
  destruct (image_to_string jpeg w4) as [r w5] eqn:Hocr.
  eauto 10 using pipeline.
Qed.

(** It starts by decoding the given bytes and runs Tesseract at most
    once, as its last call. *)
Lemma pipeline_ocr_once b (w : W) calls r w' :
  pipeline b w calls r w' -> ocr_calls calls <= 1.
Proof. destruct 1; cbn; lia. Qed.

Lemma pipeline_raises_Exception b (w : W) calls e w' :
  libraries_raise_Exception ->
  pipeline b w calls (Raise e) w' ->
  exn_is_Exception e = true.
Proof.
  intros (Hopen & Hconv & Hsave & Hocr) Hrun.
  inversion Hrun; subst; unfold raises_Exception_only in *; eauto.
Qed.

(** Every run of the [try] block: it leaves the model object alone, only
    adds to the output and to the calls, runs Tesseract at most once, and
    either returns the serialised text or raises because a step failed. *)
Lemma predict_try_cases df s :
  exists r w' out calls,
    predict_try df s =
      (r, mkState (st_self s) w' (st_stdout s ++ out) (st_calls s ++ calls)) /\
    ocr_calls calls <= 1 /\
    match r with
    | Ok v => exists text, v = json_dumps (JObj [("text", JStr text)])
    | Raise e => path_fails df (st_world s) e
    end.
Proof.
  assert (Hid : forall r : result string,
    (r, s) = (r, mkState (st_self s) (st_world s)
                   (st_stdout s ++ []) (st_calls s ++ []))).
  { intros r. rewrite !app_nil_r. by destruct s. }
  destruct (df !! "image") as [col|] eqn:Hcol.
  2:{ exists (Raise (KeyError "image")), (st_world s), [], [].
      split_and!; [|cbn; lia|by constructor].
      rewrite <- Hid. by run_predict_try. }
  destruct (col !! 0) as [v|] eqn:Hrow.
  2:{ eexists (Raise _), (st_world s), [], [].
      split_and!; [|cbn; lia|eapply fails_row; [done|]; unfold iloc; by rewrite Hrow].
      rewrite <- Hid. by run_predict_try. }
  assert (Hv : first_image df = Some v) by (apply first_image_Some; eauto).
  destruct v as [|n|str|b].
  - eexists (Raise _), (st_world s), [], [].
    split_and!; [|cbn; lia|by eapply fails_len].
    rewrite <- Hid. by run_predict_try.
  - eexists (Raise _), (st_world s), [], [].
    split_and!; [|cbn; lia|by eapply fails_len].
    rewrite <- Hid. by run_predict_try.
  - eexists (Raise _), (st_world s), [_], [].
    split_and!; [|cbn; lia|by eapply fails_buffer].
    rewrite app_nil_r. by run_predict_try.
  - destruct (pipeline_total b (st_world s)) as (calls & r & w' & Hrun).
    destruct (predict_try_pipeline df s b calls r w' Hv Hrun) as [out Hout].
    eexists _, w', out, calls. split_and!; [done|by eapply pipeline_ocr_once|].
    destruct r; [eauto|by eapply fails_library].
Qed.

(** A failing step makes the [try] block raise that step's exception. *)
Lemma path_fails_raises df s e :
  path_fails df (st_world s) e ->
  exists s', predict_try df s = (Raise e, s').
Proof.
  destruct 1 as [Hcol|col e Hcol Hrow|v e Hv Hlen|v n e Hv Hlen Hbuf
                 |b calls e w' Hv Hrun].
  - eexists. by run_predict_try.
  - unfold iloc in Hrow. destruct (col !! 0) eqn:Hc; simplify_eq.
    eexists. by run_predict_try.
  - apply first_image_Some in Hv as (col & Hcol & Hrow).
    destruct v; simplify_eq/=; eexists; by run_predict_try.
  - apply first_image_Some in Hv as (col & Hcol & Hrow).
    destruct v; simplify_eq/=; eexists; by run_predict_try.
  - destruct (predict_try_pipeline df s b calls _ w' Hv Hrun) as [out ->].
    eauto.
Qed.

Lemma path_fails_Exception df (w : W) e :
  libraries_raise_Exception ->
  path_fails df w e -> exn_is_Exception e = true.
Proof.
  intros Hlib [Hcol|col e' Hcol Hrow|v e' Hv Hlen|v n e' Hv Hlen Hbuf
               |b calls e' w' Hv Hrun].
  - done.
  - unfold iloc in Hrow. by destruct (col !! 0); simplify_eq.
  - by destruct v; simplify_eq/=.
  - by destruct v; simplify_eq/=.
  - by eapply pipeline_raises_Exception.
Qed.

(** The pipeline is a function of the bytes and the world. *)
Lemma pipeline_deterministic b (w : W) calls1 r1 w1 calls2 r2 w2 :
  pipeline b w calls1 r1 w1 -> pipeline b w calls2 r2 w2 ->
  calls1 = calls2 /\ r1 = r2 /\ w1 = w2.
Proof.
  intros Hrun1 Hrun2.
  destruct Hrun1; inversion Hrun2; simplify_eq; try done;
    repeat match goal with
      | H1 : ?f = _, H2 : ?f = _ |- _ => rewrite H1 in H2; simplify_eq
      end; done.
Qed.

(** The [except] clause turns an [Exception] raised by the [try] block
    into the error response. *)
Lemma predict_handles_raise (context : pyval) df s e s' :
  predict_try df s = (Raise e, s') ->
  exn_is_Exception e = true ->
  predict context df s =
    (Ok (json_dumps (JObj [("error", JStr (exn_str e))])), s').
Proof.
  intros Hrun Hexc. unfold predict, try_except_Exception, ret.
  by rewrite Hrun, Hexc.
Qed.

(** C1.  Whenever a step of the predict path fails (the row access, an
    image cell that cannot be read as bytes, the image decoder or the
    re-encoding, the OCR invocation) with an exception deriving from
    [Exception], [predict] does not raise: it returns, as an ordinary
    value, the JSON encoding of the object with the single key [error]
    holding the exception's message. *)
Theorem predict_catches_failure (context : pyval) df s e :
  path_fails df (st_world s) e ->
  exn_is_Exception e = true ->
  exists s',
    predict context df s =
      (Ok (json_dumps (JObj [("error", JStr (exn_str e))])), s').
Proof.
  intros Hfail Hexc. destruct (path_fails_raises df s e Hfail) as [s' Hrun].
  exists s'. by apply predict_handles_raise.
Qed.

(** The [try] block completes only on a bytes cell whose pipeline ran to
    the end; what it returns is then the text Tesseract extracted, under
    [text]. *)
Lemma predict_try_Ok df s v s' :
  predict_try df s = (Ok v, s') ->
  exists b calls text,
    first_image df = Some (PyBytes b) /\
    pipeline b (st_world s) calls (Ok text) (st_world s') /\
    v = json_dumps (JObj [("text", JStr text)]).
Proof.
  destruct (df !! "image") as [col|] eqn:Hcol.
  2:{ by run_predict_try. }
  destruct (col !! 0) as [c|] eqn:Hrow.
  2:{ by run_predict_try. }
  assert (Hv : first_image df = Some c) by (apply first_image_Some; eauto).
  destruct c as [|n|str|b]; [by run_predict_try..|].
  destruct (pipeline_total b (st_world s)) as (calls & r & w' & Hrun).
  destruct (predict_try_pipeline df s b calls r w' Hv Hrun) as [out ->].
  destruct r as [text|e]; [|done].
  intros [= <- <-]. by exists b, calls, text.
Qed.

(** When the pipeline of the cell's bytes succeeds, no step of the path
    fails. *)
Lemma pipeline_Ok_no_failure df b (w : W) calls text w' :
  first_image df = Some (PyBytes b) ->
  pipeline b w calls (Ok text) w' ->
  forall e, ~ path_fails df w e.
Proof.
  intros Hv Hrun e Hfail.
  pose proof Hv as (col & Hcol & Hrow)%first_image_Some.
  destruct Hfail as [Hcol'|col' e Hcol' Hrow'|v e Hv' Hlen|v n e Hv' Hlen Hbuf
                     |b' calls' e w'' Hv' Hrun'].
  - by rewrite Hcol in Hcol'.
  - rewrite Hcol in Hcol'. simplify_eq. unfold iloc in Hrow'.
    by rewrite Hrow in Hrow'.
  - rewrite Hv in Hv'. by simplify_eq.
  - rewrite Hv in Hv'. by simplify_eq.
  - rewrite Hv in Hv'. simplify_eq.
    by destruct (pipeline_deterministic _ _ _ _ _ _ _ _ Hrun Hrun')
      as (_ & ? & _).
Qed.

(** C2.  For every input, [predict] returns the JSON encoding of an
    object that has exactly one key.  On success, which is when the cell
    holds bytes, the pipeline on them runs to the end and no step fails,
    the key is [text] and its value is the string Tesseract extracted; on
    failure, which is when some step raises, the key is [error] and its
    value is that exception's message.  Never both keys and never
    neither. *)
Theorem predict_response_one_key (context : pyval) df s :
  libraries_raise_Exception ->
  exists j s',
    predict context df s = (Ok (json_dumps j), s') /\
    ((exists b calls text,
        first_image df = Some (PyBytes b) /\
        pipeline b (st_world s) calls (Ok text) (st_world s') /\
        (forall e, ~ path_fails df (st_world s) e) /\
        j = JObj [("text", JStr text)] /\
        has_key "error" j = false) \/
     (exists e, path_fails df (st_world s) e /\
                j = JObj [("error", JStr (exn_str e))] /\
                has_key "text" j = false)) /\
    xorb (has_key "text" j) (has_key "error" j) = true /\
    length (keys j) = 1.
Proof.
  intros Hlib.
  destruct (predict_try df s) as [[v|e] s1] eqn:Hrun.
  - destruct (predict_try_Ok df s v s1 Hrun)
      as (b & calls & text & Hv & Hp & ->).
    exists (JObj [("text", JStr text)]), s1. split_and!; [|left|done|done].
    + unfold predict, try_except_Exception. by rewrite Hrun.
    + exists b, calls, text. split_and!; [done..| |done|done].
      by eapply pipeline_Ok_no_failure.
  - assert (Hfail : path_fails df (st_world s) e).
    { destruct (predict_try_cases df s)
        as (r & w' & out & calls & Hrun' & _ & Hr).
      rewrite Hrun in Hrun'. by simplify_eq. }
    exists (JObj [("error", JStr (exn_str e))]), s1.
    split_and!; [|right; by exists e|done|done].
    apply predict_handles_raise; [done|].
    by eapply path_fails_Exception.
Qed.

(** C3.  For a single-row input whose [image] cell holds bytes that the
    decoder rejects, the response of [predict] has an [error] field,
    holding the decoder's message, and no [text] field. *)
Theorem predict_undecodable_error (context : pyval) df s b e w' :
  single_row df (PyBytes b) ->
  Image_open b (st_world s) = (Raise e, w') ->
  exn_is_Exception e = true ->
  exists j s',
    predict context df s = (Ok (json_dumps j), s') /\
    jget "error" j = Some (JStr (exn_str e)) /\
    has_key "error" j = true /\
    has_key "text" j = false.
Proof.
  intros Hdf Hopen Hexc.
  assert (Hv : first_image df = Some (PyBytes b)).
  { apply first_image_Some. by exists [PyBytes b]. }
  destruct (path_fails_raises df s e) as [s' Hrun].
  { eapply fails_library; [done|]. by apply run_open_raises. }
  eexists _, s'. split_and!; [by apply predict_handles_raise|done..].
Qed.

(** C4.  For every single-row input whose bytes decode, [predict] makes
    its library calls in this order and no others: decode the bytes;
    normalise, which for a decoded format other than JPEG is convert to
    RGB, save as JPEG and decode the saved bytes, and for a JPEG is
    nothing; run Tesseract on the resulting image.  It returns the
    extracted text under [text], or the message of the first call that
    failed under [error]. *)
Theorem predict_steps_in_order (context : pyval) df s b img w1 :
  single_row df (PyBytes b) ->
  Image_open b (st_world s) = (Ok img, w1) ->
  libraries_raise_Exception ->
  exists calls r w' out,
    pipeline b (st_world s) calls r w' /\
    predict context df s =
      (Ok (json_dumps (response r)),
       mkState (st_self s) w' (st_stdout s ++ out) (st_calls s ++ calls)) /\
    (Image_format img = Some "JPEG" ->
       calls = [COpen b; COcr img] /\ image_to_string img w1 = (r, w')) /\
    (forall rgb w2 jpeg_bytes w3 jpeg w4,
       Image_format img <> Some "JPEG" ->
       Image_convert img "RGB" w1 = (Ok rgb, w2) ->
       Image_save rgb "JPEG" w2 = (Ok jpeg_bytes, w3) ->
       Image_open jpeg_bytes w3 = (Ok jpeg, w4) ->
       calls = [COpen b; CConvert img "RGB"; CSave rgb "JPEG";
                COpen jpeg_bytes; COcr jpeg] /\
       image_to_string jpeg w4 = (r, w')).
Proof.
  intros Hdf Hopen Hlib.
  assert (Hv : first_image df = Some (PyBytes b)).
  { apply first_image_Some. by exists [PyBytes b]. }
  destruct (pipeline_total b (st_world s)) as (calls & r & w' & Hrun).
  destruct (predict_try_pipeline df s b calls r w' Hv Hrun) as [out Hout].
  exists calls, r, w', out. split_and!; [done| | |].
  - destruct r as [text|e].
    + unfold predict, try_except_Exception. by rewrite Hout.
    + apply predict_handles_raise; [done|].
      by eapply pipeline_raises_Exception.
  - intros Hfmt.
    destruct (image_to_string img w1) as [r1 w2] eqn:Hocr.
    by destruct (pipeline_deterministic _ _ _ _ _ _ _ _ Hrun
                   (run_jpeg _ _ _ _ _ _ Hopen Hfmt Hocr)) as (-> & -> & ->).
  - intros rgb w2 jpeg_bytes w3 jpeg w4 Hfmt Hconv Hsave Hreopen.
    destruct (image_to_string jpeg w4) as [r1 w5] eqn:Hocr.
    by destruct (pipeline_deterministic _ _ _ _ _ _ _ _ Hrun
                   (run_reencoded _ _ _ _ _ _ _ _ _ _ _ _
                      Hopen Hfmt Hconv Hsave Hreopen Hocr))
      as (-> & -> & ->).
Qed.

(** C8.  [predict] is one pass: whatever the input, it runs Tesseract at
    most once (a failure is not retried), it only appends to the record
    of calls, and the attributes of the model object after the call are
    those before it. *)
Theorem predict_single_pass (context : pyval) df s :
  st_self (predict context df s).2 = st_self s /\
  exists calls,
    st_calls (predict context df s).2 = st_calls s ++ calls /\
    ocr_calls calls <= 1.
Proof.
  destruct (predict_try_cases df s) as (r & w' & out & calls & Hrun & Hocr & _).
  unfold predict, try_except_Exception, ret. rewrite Hrun.
  destruct r as [v|e]; [|destruct (exn_is_Exception e)]; cbn; eauto.
Qed.

(** C9.  [predict] reads row 0 of the [image] column and nothing else of
    the table: two tables with the same cell there give the same result
    and the same final state, whatever their other rows and columns. *)
Theorem predict_first_row_only (context : pyval) df1 df2 v s :
  first_image df1 = Some v ->
  first_image df2 = Some v ->
  predict context df1 s = predict context df2 s.
Proof.
  intros (col1 & Hcol1 & Hrow1)%first_image_Some
         (col2 & Hcol2 & Hrow2)%first_image_Some.
  unfold predict, try_except_Exception.
  replace (predict_try df2 s) with (predict_try df1 s); [done|].
  unfold predict_try, bind, lift, getitem, iloc.
  by rewrite Hcol1, Hcol2, Hrow1, Hrow2.
Qed.

(** C10.  [predict] returns a value on every table.  In particular a
    table without an [image] column, and one whose [image] column has no
    row, fail at the row access inside the [try] block and yield an
    [error] response, with nothing printed and no library called. *)
Theorem predict_total (context : pyval) df s :
  libraries_raise_Exception ->
  (exists v s', predict context df s = (Ok v, s')) /\
  (df !! "image" = None ->
     predict context df s =
       (Ok (json_dumps (JObj [("error", JStr "'image'")])), s)) /\
  (df !! "image" = Some [] ->
     predict context df s =
       (Ok (json_dumps (JObj [("error",
              JStr "single positional indexer is out-of-bounds")])), s)).
Proof.
  intros Hlib. split_and!.
  - destruct (predict_try_cases df s) as (r & w' & out & calls & Hrun & _ & Hr).
    destruct r as [v|e].
    + unfold predict, try_except_Exception. rewrite Hrun. eauto.
    + eexists _, _. apply predict_handles_raise; [done|].
      by eapply path_fails_Exception.
  - intros Hcol. apply (predict_handles_raise _ _ _ (KeyError "image")); [|done].
    by run_predict_try.
  - intros Hcol.
    apply (predict_handles_raise _ _ _
             (IndexError "single positional indexer is out-of-bounds"));
      [|done].
    by run_predict_try.
Qed.

(** ** Further properties of [predict] *)

(** The [try] block reads the table only through row 0 of [image]. *)
Lemma predict_try_first_image df1 df2 v s :
  first_image df1 = Some v ->
  first_image df2 = Some v ->
  predict_try df1 s = predict_try df2 s.
Proof.
  intros (col1 & Hcol1 & Hrow1)%first_image_Some
         (col2 & Hcol2 & Hrow2)%first_image_Some.
  unfold predict_try, bind, lift, getitem, iloc.
  by rewrite Hcol1, Hcol2, Hrow1, Hrow2.
Qed.

(** On a bytes cell the run is that of the pipeline, whatever the model
    object, the earlier output and the earlier calls are; between one and
    three lines are printed. *)
Lemma predict_try_pipeline_frame df b (w : W) calls r w' :
  first_image df = Some (PyBytes b) ->
  pipeline b w calls r w' ->
  exists out,
    (forall self stdout calls0,
       predict_try df (mkState self w stdout calls0) =
         (match r with
          | Ok text => Ok (json_dumps (JObj [("text", JStr text)]))
          | Raise e => Raise e
          end,
          mkState self w' (stdout ++ out) (calls0 ++ calls))) /\
    1 <= length out <= 3.
Proof.
  intros (col & Hcol & Hrow)%first_image_Some Hrun.
  destruct Hrun;
    repeat match goal with
      | H : Image_format _ = Some "JPEG" |- _ =>
          apply format_ne_JPEG_false in H
      | H : Image_format _ <> Some "JPEG" |- _ =>
          apply format_ne_JPEG_true in H
      end;
    (eexists; split;
     [ intros self stdout calls0; run_predict_try; try (destruct r);
       rewrite <- ?app_assoc; cbn [app]; reflexivity
     | cbn; lia ]).
Qed.

(** Every run of the [try] block, uniformly in the parts of the state it
    does not read: either the cell is not bytes, nothing outside is touched
    and an [Exception] is raised, or the cell is bytes and the run is the
    pipeline's. *)
Lemma predict_try_run df (w : W) :
  exists r w' out calls,
    (forall self stdout calls0,
       predict_try df (mkState self w stdout calls0) =
         (r, mkState self w' (stdout ++ out) (calls0 ++ calls))) /\
    length out <= 3 /\
    ((calls = [] /\ w' = w /\ (forall b, first_image df <> Some (PyBytes b)) /\
      exists e, r = Raise e /\ exn_is_Exception e = true) \/
     (exists b r0,
        first_image df = Some (PyBytes b) /\ pipeline b w calls r0 w' /\
        r = match r0 with
            | Ok text => Ok (json_dumps (JObj [("text", JStr text)]))
            | Raise e => Raise e
            end)).
Proof.
  destruct (df !! "image") as [col|] eqn:Hcol.
  2:{ exists (Raise (KeyError "image")), w, [], [].
      split_and!; [|cbn; lia|left; split_and!; [done..| |by eauto]].
      - intros self stdout calls0. rewrite !app_nil_r. by run_predict_try.
      - intros b. unfold first_image. by rewrite Hcol. }
  destruct (col !! 0) as [v|] eqn:Hrow.
  2:{ eexists (Raise (IndexError _)), w, [], [].
      split_and!; [|cbn; lia|left; split_and!; [done..| |by eauto]].
      - intros self stdout calls0. rewrite !app_nil_r. by run_predict_try.
      - intros b. unfold first_image. rewrite Hcol. simpl. by rewrite Hrow. }
  assert (Hv : first_image df = Some v) by (apply first_image_Some; eauto).
  destruct v as [|n|str|b].
  - eexists (Raise (TypeError _)), w, [], [].
    split_and!; [|cbn; lia|left; split_and!; [done..| |by eauto]].
    + intros self stdout calls0. rewrite !app_nil_r. by run_predict_try.
    + intros b. by rewrite Hv.
  - eexists (Raise (TypeError _)), w, [], [].
    split_and!; [|cbn; lia|left; split_and!; [done..| |by eauto]].
    + intros self stdout calls0. rewrite !app_nil_r. by run_predict_try.
    + intros b. by rewrite Hv.
  - eexists (Raise (TypeError _)), w, [_], [].
    split_and!; [|cbn; lia|left; split_and!; [done..| |by eauto]].
    + intros self stdout calls0. rewrite !app_nil_r. by run_predict_try.
    + intros b. by rewrite Hv.
  - destruct (pipeline_total b w) as (calls & r & w' & Hrun).
    destruct (predict_try_pipeline_frame df b w calls r w' Hv Hrun)
      as (out & Hout & Hlen).
    eexists _, w', out, calls. split_and!; [done|lia|right; eauto 10].
Qed.

(** The same for [predict]: the outcome [r], the world [w'], the lines
    [out] and the calls [calls] are fixed by the table and the world. *)
Lemma predict_frame df (w : W) :
  exists r w' out calls,
    (forall context self stdout calls0,
       predict context df (mkState self w stdout calls0) =
         (r, mkState self w' (stdout ++ out) (calls0 ++ calls))) /\
    length out <= 3 /\
    ((calls = [] /\ w' = w /\ forall b, first_image df <> Some (PyBytes b)) \/
     (exists b r0,
        first_image df = Some (PyBytes b) /\ pipeline b w calls r0 w')).
Proof.
  destruct (predict_try_run df w) as (r & w' & out & calls & Hrun & Hlen & Hr).
  exists (match r with
          | Ok v => Ok v
          | Raise e =>
              if exn_is_Exception e
              then Ok (json_dumps (JObj [("error", JStr (exn_str e))]))
              else Raise e
          end), w', out, calls.
  split_and!; [|done|].
  - intros context self stdout calls0.
    unfold predict, try_except_Exception, ret. rewrite Hrun.
    destruct r as [v|e]; [done|]. by destruct (exn_is_Exception e).
  - destruct Hr as [(-> & -> & Hv & _)|(b & r0 & Hv & Hp & _)]; eauto 10.
Qed.

Lemma state_eta s :
  s = mkState (st_self s) (st_world s) (st_stdout s) (st_calls s).
Proof. by destruct s. Qed.

(** The calls of a pipeline that reaches Tesseract: the first decodes the
    given bytes, successfully, and the last is the OCR call. *)
Lemma pipeline_ocr_last b (w : W) calls r w' :
  pipeline b w calls r w' ->
  ocr_calls calls <> 0 ->
  exists img0 w0 img,
    Image_open b w = (Ok img0, w0) /\
    head calls = Some (COpen b) /\
    last calls = Some (COcr img) /\
    (Image_format img0 = Some "JPEG" -> img = img0).
Proof.
  destruct 1; cbn; intros Hocr; try done.
  - eexists _, _, _. split_and!; [done..|]. done.
  - eexists _, _, _. split_and!; [done..|]. done.
Qed.

(** X1.  A cell that is not bytes (a missing value, a number, or text such
    as the base64 string of the online request) is rejected before any
    library is called: the response is the [TypeError] message of [len] or
    of [io.BytesIO] under [error], the outside world and the record of
    calls are untouched, and only the length line may have been printed. *)
Theorem predict_rejects_non_bytes (context : pyval) df s v :
  first_image df = Some v ->
  (forall b, v <> PyBytes b) ->
  exists e out,
    (len v = Raise e /\ out = [] \/
     exists n, len v = Ok n /\ BytesIO v = Raise e /\
               out = ["Image bytes length: " +:+ pretty n]) /\
    predict context df s =
      (Ok (json_dumps (JObj [("error", JStr (exn_str e))])),
       mkState (st_self s) (st_world s) (st_stdout s ++ out) (st_calls s)).
Proof.
  intros Hv Hnb. pose proof Hv as (col & Hcol & Hrow)%first_image_Some.
  destruct v as [|n|str|b]; [| | |by destruct (Hnb b)].
  - eexists _, []. split; [left; by split|].
    apply predict_handles_raise; [|done].
    rewrite app_nil_r, <- state_eta. by run_predict_try.
  - eexists _, []. split; [left; by split|].
    apply predict_handles_raise; [|done].
    rewrite app_nil_r, <- state_eta. by run_predict_try.
  - eexists _, [_]. split; [right; by eexists|].
    apply predict_handles_raise; [|done]. by run_predict_try.
Qed.

(** X2.  [predict] swallows only what derives from [Exception]: when the
    failing step raises something else, such as a [KeyboardInterrupt]
    while Tesseract runs, that exception leaves [predict] unchanged and no
    response is produced. *)
Theorem predict_propagates_non_Exception (context : pyval) df s e :
  path_fails df (st_world s) e ->
  exn_is_Exception e = false ->
  exists s', predict context df s = (Raise e, s').
Proof.
  intros Hfail Hexc. destruct (path_fails_raises df s e Hfail) as [s' Hrun].
  exists s'. unfold predict, try_except_Exception. by rewrite Hrun, Hexc.
Qed.

(** X3.  Tesseract is run only on an image that Pillow decoded: if the
    calls of a [predict] include an OCR call, then the cell held bytes, the
    first call decoded those bytes successfully, the OCR call is the last
    call, and for a JPEG it reads the decoded image itself. *)
Theorem predict_ocr_only_after_decode (context : pyval) df s calls :
  st_calls (predict context df s).2 = st_calls s ++ calls ->
  ocr_calls calls <> 0 ->
  exists b img0 w0 img,
    first_image df = Some (PyBytes b) /\
    Image_open b (st_world s) = (Ok img0, w0) /\
    head calls = Some (COpen b) /\
    last calls = Some (COcr img) /\
    (Image_format img0 = Some "JPEG" -> img = img0).
Proof.
  destruct (predict_frame df (st_world s))
    as (r & w' & out & calls' & Hrun & _ & Hcase).
  rewrite (state_eta s) at 1. rewrite Hrun. cbn.
  intros ->%app_inv_head Hocr.
  destruct Hcase as [(-> & _)|(b & r0 & Hv & Hp)]; [done|].
  destruct (pipeline_ocr_last b _ _ _ _ Hp Hocr)
    as (img0 & w0 & img & ? & ? & ? & ?).
  by exists b, img0, w0, img.
Qed.

(** X4.  The response and the world [predict] leaves behind depend only
    on the first image cell and on the world it starts in: not on the
    [context] argument, the model object's attributes, earlier output or
    earlier calls, nor on the rest of the table. *)
Theorem predict_depends_on_cell_and_world
    (context1 context2 : pyval) df1 df2 v s1 s2 :
  first_image df1 = Some v ->
  first_image df2 = Some v ->
  st_world s1 = st_world s2 ->
  (predict context1 df1 s1).1 = (predict context2 df2 s2).1 /\
  st_world (predict context1 df1 s1).2 = st_world (predict context2 df2 s2).2.
Proof.
  intros Hv1 Hv2 Hw.
  assert (Heq : predict context2 df2 s2 = predict context2 df1 s2).
  { unfold predict, try_except_Exception.
    by rewrite (predict_try_first_image df2 df1 v s2). }
  rewrite Heq. clear Heq.
  destruct s1 as [self1 w stdout1 calls1], s2 as [self2 w2 stdout2 calls2].
  cbn in Hw. subst w2.
  destruct (predict_frame df1 w) as (r & w' & out & calls & Hrun & _).
  by rewrite !Hrun.
Qed.

(** X5.  [predict] only appends to what was printed, at most three lines
    per call. *)
Theorem predict_prints_at_most_three_lines (context : pyval) df s :
  exists out,
    st_stdout (predict context df s).2 = st_stdout s ++ out /\
    length out <= 3.
Proof.
  destruct (predict_frame df (st_world s))
    as (r & w' & out & calls & Hrun & Hlen & _).
  exists out. rewrite (state_eta s) at 1. by rewrite Hrun.
Qed.

End Predict.

(** * The serving request *)

(** C7.  The serving cell makes one request, [create_endpoint], for one
    endpoint named after the model.  Its configuration lists a single
    served entity, the registered model [catalog.schema.model_name] at
    version ["1"], and a single route, which sends 100 percent of the
    traffic to that entity. *)
Theorem serving_one_endpoint_one_route (catalog schema model_name : string) :
  exists config entity route,
    serving_step catalog schema model_name =
      [create_endpoint "databricks" model_name config] /\
    jget "served_entities" config = Some (JArr [entity]) /\
    jget "name" entity = Some (JStr model_name) /\
    jget "entity_name" entity =
      Some (JStr (catalog ++ "." ++ schema ++ "." ++ model_name)) /\
    jget "entity_version" entity = Some (JStr "1") /\
    (jget "traffic_config" config ≫= jget "routes") = Some (JArr [route]) /\
    jget "served_model_name" route = jget "name" entity /\
    jget "traffic_percentage" route = Some (JNum 100) /\
    keys config = ["served_entities"; "traffic_config"] /\
    (keys <$> jget "traffic_config" config) = Some ["routes"].
Proof. unfold serving_step, endpoint_config. by eexists _, _, _. Qed.

(** * Properties of [load_context] and of the registry cells *)

Section LoadContext.
Context {W : Type} `{!Subprocess W}.

Implicit Types (p : process W).

(** X6.  [load_context] returns normally exactly when [apt-get update]
    and then, in the world it leaves, [apt-get install -y tesseract-ocr]
    both succeed; the two commands were then run in this order and no
    other, and [tesseract_cmd] is [/usr/bin/tesseract]. *)
Theorem load_context_returns_iff (context : pyval) p p' :
  load_context context p = (Ok tt, p') <->
  exists w1 w2,
    subprocess_run_check apt_get_update (pr_world p) = (Ok tt, w1) /\
    subprocess_run_check apt_get_install w1 = (Ok tt, w2) /\
    p' = mkProcess "/usr/bin/tesseract" w2
           (pr_commands p ++ [apt_get_update; apt_get_install]).
Proof.
  unfold load_context, run_command, set_tesseract_cmd.
  destruct (subprocess_run_check apt_get_update (pr_world p))
    as [[[]|e1] w1] eqn:Hupdate; cbn.
  - destruct (subprocess_run_check apt_get_install w1)
      as [[[]|e2] w2] eqn:Hinstall; cbn; rewrite <- ?app_assoc; cbn.
    + split; [intros [= <-]; by exists w1, w2|].
      intros (w1' & w2' & [= <-] & Hinstall' & ->).
      rewrite Hinstall in Hinstall'. by simplify_eq.
    + split; [done|]. intros (w1' & w2' & [= <-] & Hinstall' & _).
      rewrite Hinstall in Hinstall'. by simplify_eq.
  - split; [done|]. by intros (w1' & w2' & ? & _).
Qed.

(** X7.  A command that fails ends [load_context] with that command's
    exception, uncaught, and with [tesseract_cmd] as it was: either
    [apt-get update] raised it, and the installation was not attempted, or
    the update succeeded and the installation raised it. *)
Theorem load_context_failure (context : pyval) p e p' :
  load_context context p = (Raise e, p') ->
  tesseract_cmd p' = tesseract_cmd p /\
  ((subprocess_run_check apt_get_update (pr_world p) = (Raise e, pr_world p') /\
    pr_commands p' = pr_commands p ++ [apt_get_update]) \/
   (exists w1,
      subprocess_run_check apt_get_update (pr_world p) = (Ok tt, w1) /\
      subprocess_run_check apt_get_install w1 = (Raise e, pr_world p') /\
      pr_commands p' = pr_commands p ++ [apt_get_update; apt_get_install])).
Proof.
  unfold load_context, run_command, set_tesseract_cmd.
  destruct (subprocess_run_check apt_get_update (pr_world p))
    as [[[]|e1] w1] eqn:Hupdate; cbn.
  - destruct (subprocess_run_check apt_get_install w1)
      as [[[]|e2] w2] eqn:Hinstall; cbn; [done|].
    intros [= <- <-]. cbn. rewrite <- app_assoc. eauto 10.
  - intros [= <- <-]. cbn. eauto.
Qed.

End LoadContext.

(** X8.  The cells agree on what they name: the model is registered from
    the URI of the artifact logged in the run, [runs:/<run_id>/] followed
    by the artifact path, which is also the URI loaded for the offline
    prediction; and the one entity the endpoint serves carries the name the
    model was registered under. *)
Theorem served_entity_is_registered_model
    (run_id catalog schema model_name : string) :
  exists artifact_path uri name config entity,
    registration_cell run_id catalog schema model_name =
      [log_model run_id artifact_path;
       set_registry_uri "databricks-uc";
       register_model uri name] /\
    uri = "runs:/" +:+ run_id +:+ "/" +:+ artifact_path /\
    load_cell run_id = [load_model uri] /\
    serving_step catalog schema model_name =
      [create_endpoint "databricks" model_name config] /\
    jget "served_entities" config = Some (JArr [entity]) /\
    jget "entity_name" entity = Some (JStr name).
Proof.
  unfold registration_cell, load_cell, serving_step, endpoint_config.
  by eexists "ocr_model", _, _, _, _.
Qed.

(** * The properties on concrete tables *)

Section Witnesses.
Import Example.

Lemma example_libraries_raise_Exception :
  libraries_raise_Exception (W := world) (image := picture).
Proof.
  repeat split; intros ? **; intros w e w'; cbn.
  - unfold open_picture. repeat case_match; by intros [= <- _].
  - unfold convert_picture. by intros [=].
  - unfold save_picture. repeat case_match; by intros [= <- _].
  - unfold read_picture. repeat case_match; by intros [= <- _].
Qed.

(** Bytes that are no image: the decoder's message comes back under
    [error]. *)
Lemma predict_catches_failure_witness :
  path_fails (table [PyBytes garbage]) (st_world (initial true))
             UnidentifiedImageError /\
  exn_is_Exception UnidentifiedImageError = true /\
  exists s',
    predict PyNone (table [PyBytes garbage]) (initial true) =
      (Ok (json_dumps (JObj [("error", JStr "cannot identify image file")])),
       s').
Proof.
  assert (Hfail : path_fails (table [PyBytes garbage])
                    (st_world (initial true)) UnidentifiedImageError).
  { eapply fails_library with (b := garbage); [reflexivity|].
    apply run_open_raises. reflexivity. }
  split; [exact Hfail|]. split; [reflexivity|].
  exact (predict_catches_failure PyNone (table [PyBytes garbage])
           (initial true) UnidentifiedImageError Hfail eq_refl).
Defined.

(** A JPEG that shows [Hi]: one key, [text], holding what was read. *)
Lemma predict_response_one_key_witness :
  let df := table [PyBytes jpeg_Hi] in
  let s := initial true in
  libraries_raise_Exception (W := world) (image := picture) /\
  exists j s',
    predict PyNone df s = (Ok (json_dumps j), s') /\
    ((exists b calls text,
        first_image df = Some (PyBytes b) /\
        pipeline b (st_world s) calls (Ok text) (st_world s') /\
        (forall e, ~ path_fails df (st_world s) e) /\
        j = JObj [("text", JStr text)] /\
        has_key "error" j = false) \/
     (exists e, path_fails df (st_world s) e /\
                j = JObj [("error", JStr (exn_str e))] /\
                has_key "text" j = false)) /\
    xorb (has_key "text" j) (has_key "error" j) = true /\
    length (keys j) = 1.
Proof.
  intros df s.
  split; [exact example_libraries_raise_Exception|].
  exact (predict_response_one_key PyNone df s
           example_libraries_raise_Exception).
Defined.

(** Bytes that are no image, in a single-row table. *)
Lemma predict_undecodable_error_witness :
  single_row (table [PyBytes garbage]) (PyBytes garbage) /\
  Image_open garbage (st_world (initial true)) =
    (Raise UnidentifiedImageError, st_world (initial true)) /\
  exn_is_Exception UnidentifiedImageError = true /\
  exists j s',
    predict PyNone (table [PyBytes garbage]) (initial true) =
      (Ok (json_dumps j), s') /\
    jget "error" j = Some (JStr "cannot identify image file") /\
    has_key "error" j = true /\
    has_key "text" j = false.
Proof.
  split; [reflexivity|]. split; [reflexivity|]. split; [reflexivity|].
  exact (predict_undecodable_error PyNone (table [PyBytes garbage])
           (initial true) garbage UnidentifiedImageError
           (st_world (initial true)) eq_refl eq_refl eq_refl).
Defined.

(** A PNG that shows [Hi]: decoded, converted, saved as JPEG, decoded
    again, read. *)
Lemma predict_steps_in_order_witness :
  let img := mkPicture (Some "PNG") [Byte.x48; Byte.x69] in
  let w := st_world (initial true) in
  single_row (table [PyBytes png_Hi]) (PyBytes png_Hi) /\
  Image_open png_Hi w = (Ok img, w) /\
  libraries_raise_Exception (W := world) (image := picture) /\
  exists calls r w' out,
    pipeline png_Hi w calls r w' /\
    predict PyNone (table [PyBytes png_Hi]) (initial true) =
      (Ok (json_dumps (response r)),
       mkState ∅ w' ([] ++ out) ([] ++ calls)) /\
    (Image_format img = Some "JPEG" ->
       calls = [COpen png_Hi; COcr img] /\ image_to_string img w = (r, w')) /\
    (forall rgb w2 jpeg_bytes w3 jpeg w4,
       Image_format img <> Some "JPEG" ->
       Image_convert img "RGB" w = (Ok rgb, w2) ->
       Image_save rgb "JPEG" w2 = (Ok jpeg_bytes, w3) ->
       Image_open jpeg_bytes w3 = (Ok jpeg, w4) ->
       calls = [COpen png_Hi; CConvert img "RGB"; CSave rgb "JPEG";
                COpen jpeg_bytes; COcr jpeg] /\
       image_to_string jpeg w4 = (r, w')).
Proof.
  intros img w.
  split; [reflexivity|]. split; [reflexivity|].
  split; [exact example_libraries_raise_Exception|].
  exact (predict_steps_in_order PyNone (table [PyBytes png_Hi])
           (initial true) png_Hi img w eq_refl eq_refl
           example_libraries_raise_Exception).
Defined.

(** A one-row table and a two-row, two-column table with the same first
    image. *)
Lemma predict_first_row_only_witness :
  let df1 := table [PyBytes png_Hi] in
  let df2 := <["label" := [PyInt 7; PyNone]]>
               (table [PyBytes png_Hi; PyStr "aGk="]) in
  first_image df1 = Some (PyBytes png_Hi) /\
  first_image df2 = Some (PyBytes png_Hi) /\
  predict PyNone df1 (initial true) = predict PyNone df2 (initial true).
Proof.
  intros df1 df2.
  split; [reflexivity|]. split; [vm_compute; reflexivity|].
  exact (predict_first_row_only PyNone df1 df2 (PyBytes png_Hi)
           (initial true) eq_refl eq_refl).
Defined.

(** A table without rows. *)
Lemma predict_total_witness :
  libraries_raise_Exception (W := world) (image := picture) /\
  table [] !! "image" = Some [] /\
  predict PyNone (table []) (initial true) =
    (Ok (json_dumps (JObj [("error",
           JStr "single positional indexer is out-of-bounds")])),
     initial true).
Proof.
  split; [exact example_libraries_raise_Exception|].
  split; [reflexivity|].
  exact (proj2 (proj2 (predict_total PyNone (table []) (initial true)
                         example_libraries_raise_Exception)) eq_refl).
Defined.

(** Whether re-encoding preserves the extracted text is a property of the
    encoder and of the recogniser, not of [predict]: with the lossless
    encoder the two paths agree on the PNG, with the lossy one they do
    not. *)
Remark reencoding_depends_on_encoder :
  (predict PyNone (table [PyBytes png_Hi]) (initial true)).1 =
    Ok (json_dumps (response (ocr_direct png_Hi (mkWorld true 0)))) /\
  (predict (PIL0 := lossy_pictures) PyNone (table [PyBytes png_Hi])
     (initial true)).1 = Ok (json_dumps (JObj [("text", JStr "H")])) /\
  ocr_direct (PIL0 := lossy_pictures) png_Hi (mkWorld true 0) = Ok "Hi".
Proof. by vm_compute. Qed.

(** The table of the online request, its cell still base64 text. *)
Lemma predict_rejects_non_bytes_witness :
  let v := PyStr "aGk=" in
  first_image (online_input "aGk=") = Some v /\
  (forall b, v <> PyBytes b) /\
  exists e out,
    (len v = Raise e /\ out = [] \/
     exists n, len v = Ok n /\ BytesIO v = Raise e /\
               out = ["Image bytes length: " +:+ pretty n]) /\
    predict PyNone (online_input "aGk=") (initial true) =
      (Ok (json_dumps (JObj [("error", JStr (exn_str e))])),
       mkState ∅ (mkWorld true 0) ([] ++ out) []).
Proof.
  intros v.
  assert (Hnb : forall b, v <> PyBytes b) by discriminate.
  split; [reflexivity|]. split; [exact Hnb|].
  exact (predict_rejects_non_bytes PyNone (online_input "aGk=")
           (initial true) v eq_refl Hnb).
Defined.

(** Tesseract interrupted while it reads the JPEG. *)
Lemma predict_propagates_non_Exception_witness :
  path_fails (PIL0 := pictures) (Pytesseract0 := interrupted_reader)
    (offline_input jpeg_Hi) (mkWorld true 0) KeyboardInterrupt /\
  exn_is_Exception KeyboardInterrupt = false /\
  exists s',
    predict (Pytesseract0 := interrupted_reader) PyNone
      (offline_input jpeg_Hi) (initial true) = (Raise KeyboardInterrupt, s').
Proof.
  assert (Hfail : path_fails (PIL0 := pictures)
                    (Pytesseract0 := interrupted_reader)
                    (offline_input jpeg_Hi) (mkWorld true 0)
                    KeyboardInterrupt).
  { eapply fails_library with (b := jpeg_Hi); [reflexivity|].
    eapply run_jpeg; reflexivity. }
  split; [exact Hfail|]. split; [reflexivity|].
  exact (predict_propagates_non_Exception (Pytesseract0 := interrupted_reader)
           PyNone (offline_input jpeg_Hi) (initial true) KeyboardInterrupt
           Hfail eq_refl).
Defined.

(** The two calls made for the JPEG. *)
Lemma predict_ocr_only_after_decode_witness :
  let img := mkPicture (Some "JPEG") [Byte.x48; Byte.x69] in
  let calls := [COpen jpeg_Hi; COcr img] in
  st_calls (predict PyNone (offline_input jpeg_Hi) (initial true)).2 =
    [] ++ calls /\
  ocr_calls calls <> 0 /\
  exists b img0 w0 img',
    first_image (offline_input jpeg_Hi) = Some (PyBytes b) /\
    Image_open b (mkWorld true 0) = (Ok img0, w0) /\
    head calls = Some (COpen b) /\
    last calls = Some (COcr img') /\
    (Image_format img0 = Some "JPEG" -> img' = img0).
Proof.
  intros img calls.
  assert (Hocr : ocr_calls calls <> 0) by (cbn; lia).
  split; [reflexivity|]. split; [exact Hocr|].
  exact (predict_ocr_only_after_decode PyNone (offline_input jpeg_Hi)
           (initial true) calls eq_refl Hocr).
Defined.

(** The same PNG in two tables, read by two model objects with different
    attributes and histories. *)
Lemma predict_depends_on_cell_and_world_witness :
  let df1 := offline_input png_Hi in
  let df2 := table [PyBytes png_Hi; PyNone] in
  let s1 := initial true in
  let s2 := mkState {["lang" := PyStr "eng"]} (mkWorld true 0)
              ["earlier output"] [COpen garbage] in
  first_image df1 = Some (PyBytes png_Hi) /\
  first_image df2 = Some (PyBytes png_Hi) /\
  st_world s1 = st_world s2 /\
  (predict PyNone df1 s1).1 = (predict (PyInt 1) df2 s2).1 /\
  st_world (predict PyNone df1 s1).2 = st_world (predict (PyInt 1) df2 s2).2.
Proof.
  intros df1 df2 s1 s2.
  split; [reflexivity|]. split; [reflexivity|]. split; [reflexivity|].
  exact (predict_depends_on_cell_and_world PyNone (PyInt 1) df1 df2
           (PyBytes png_Hi) s1 s2 eq_refl eq_refl eq_refl).
Defined.

(** No network: [apt-get update] fails, nothing is installed, the path is
    left at its default. *)
Lemma load_context_failure_witness :
  let p' := mkProcess "tesseract" (mkWorld false 0) [apt_get_update] in
  load_context (Subprocess0 := apt_offline) PyNone fresh_process =
    (Raise CalledProcessError, p') /\
  tesseract_cmd p' = tesseract_cmd fresh_process /\
  ((subprocess_run_check (Subprocess := apt_offline) apt_get_update
      (pr_world fresh_process) = (Raise CalledProcessError, pr_world p') /\
    pr_commands p' = pr_commands fresh_process ++ [apt_get_update]) \/
   (exists w1,
      subprocess_run_check (Subprocess := apt_offline) apt_get_update
        (pr_world fresh_process) = (Ok tt, w1) /\
      subprocess_run_check (Subprocess := apt_offline) apt_get_install w1 =
        (Raise CalledProcessError, pr_world p') /\
      pr_commands p' =
        pr_commands fresh_process ++ [apt_get_update; apt_get_install])).
Proof.
  intros p'. split; [reflexivity|].
  exact (load_context_failure (Subprocess0 := apt_offline) PyNone
           fresh_process CalledProcessError p' eq_refl).
Defined.

End Witnesses.
